(** * tennisAICoach: the landmark analysis engine and the video pipeline of [app.py]

    A shallow embedding of [calculate_angle], [analyze_landmarks] and
    [analyze_video_endpoint], and the properties of the written
    specification that can be settled on them.

    Numbers.  Python floats are modelled by exact numbers: binary64 rounding,
    infinities and NaN are not modelled.  Landmark coordinates and angles are
    real numbers ([R]), because [calculate_angle] goes through [arctan2] and
    [pi].  The frame rate only enters rational arithmetic, so it is a rational
    ([Q]) and the timestamp computation stays executable.  The theorems say
    which branch is taken and how runs relate; they assert no rounded value.

    Library calls.  What OpenCV, MediaPipe and werkzeug return is input of the
    model: the opened flag, the frame rate and the frames of a capture, the
    outcome of each detector call, the sanitised name of an upload.  Of their
    failures the model has an exception of a detector call and the failure of
    [file.save] on the upload folder itself. *)

From Stdlib Require Import Reals Lra Lia ZArith QArith Qround Qabs.
From Stdlib Require Import List String Ascii DecimalString Bool.
Import ListNotations.

Set Implicit Arguments.

(* ================================================================== *)
(** * The Python run time the program relies on *)
(* ================================================================== *)

Module Py.

(** Exceptions that can travel through the pipeline.  [External] stands for
    an exception raised inside OpenCV or MediaPipe. *)
Inductive exn : Type :=
| IndexError
| ZeroDivisionError
| External (msg : string).

(** [str(e)] *)
Definition str (e : exn) : string :=
  match e with
  | IndexError => "list index out of range"
  | ZeroDivisionError => "float division by zero"
  | External msg => msg
  end.

(** A computation either returns a value or raises. *)
Inductive result (A : Type) : Type :=
| Ok (a : A)
| Raise (e : exn).
Arguments Ok {A} a.
Arguments Raise {A} e.

Definition bind {A B : Type} (m : result A) (k : A -> result B) : result B :=
  match m with
  | Ok a => k a
  | Raise e => Raise e
  end.

(** Truth value of a list: [if l:] *)
Definition truthy {A : Type} (l : list A) : bool :=
  match l with
  | [] => false
  | _ :: _ => true
  end.

(** [len(l)] *)
Definition len {A : Type} (l : list A) : Z := Z.of_nat (List.length l).

(** [l[i]], negative indices counting from the end, [IndexError] out of
    range. *)
Definition getitem {A : Type} (l : list A) (i : Z) : result A :=
  let idx := if (i <? 0)%Z then (i + len l)%Z else i in
  if (idx <? 0)%Z then Raise IndexError
  else match nth_error l (Z.to_nat idx) with
       | Some a => Ok a
       | None => Raise IndexError
       end.

(** [int(r)] on a real: truncation towards zero. *)
Definition int_of_real (r : R) : Z :=
  if Rle_dec 0 r then Zfloor r else (- Zfloor (- r))%Z.

(** [int(q)] on a rational: truncation towards zero. *)
Definition int_of_rat (q : Q) : Z := Z.quot (Qnum q) (Zpos (Qden q)).

(** Decimal text of an integer, as an f-string prints it. *)
Definition format_int (z : Z) : string := NilZero.string_of_int (Z.to_int z).

(** [sub in s] on strings. *)
Definition contains (s sub : string) : Prop :=
  exists p q : string, s = (p ++ sub ++ q)%string.

(** True division of numbers: [a / b]. *)
Definition truediv (a b : Q) : result Q :=
  if Qeq_bool b 0 then Raise ZeroDivisionError else Ok (a / b)%Q.

End Py.

Import Py.

Declare Scope py_scope.
Delimit Scope py_scope with py.
Notation "x <- m ;; k" := (bind m (fun x => k))
  (at level 61, m at next level, right associativity) : py_scope.

(* ================================================================== *)
(** * Analysis helper functions *)
(* ================================================================== *)

Module Analysis.

Local Open Scope R_scope.
Local Open Scope py_scope.

(** [np.arctan2(y, x)] on exact reals: the angle of the vector [(x, y)],
    in [(-pi, pi]]; 0 at the origin. *)
Definition arctan2 (y x : R) : R :=
  if Rlt_dec 0 x then atan (y / x)
  else if Rlt_dec x 0 then
         if Rle_dec 0 y then atan (y / x) + PI else atan (y / x) - PI
  else if Rlt_dec 0 y then PI / 2
  else if Rlt_dec y 0 then - (PI / 2)
  else 0.

(** A point [[x, y]]. *)
Definition Point : Type := (R * R)%type.

(** [calculate_angle(a, b, c)] *)
Definition calculate_angle (a b c : Point) : R :=
  let radians :=
    arctan2 (snd c - snd b) (fst c - fst b)
    - arctan2 (snd a - snd b) (fst a - fst b) in
  let angle := Rabs (radians * 180 / PI) in
  if Rlt_dec 180 angle then 360 - angle else angle.

(** One landmark, the dictionary [{'x', 'y', 'z', 'visibility'}]. *)
Record Landmark : Type := mkLandmark {
  x : R;
  y : R;
  z : R;
  visibility : R
}.

(** The landmarks of one frame, and of a whole clip. *)
Definition FrameLandmarks : Type := list Landmark.
Definition LandmarkTrace : Type := list FrameLandmarks.

(** The feedback lines. *)
Definition arm_bent_line (min_elbow_angle : R) : string :=
  ("Your arm is quite bent. The minimum elbow angle was "
     ++ format_int (int_of_real min_elbow_angle)
     ++ "°. Try to keep the arm straighter for more power.")%string.
Definition arm_good_line : string :=
  "Good arm extension! Your elbow angle looks solid.".
Definition arm_unknown_line : string :=
  "Could not determine elbow angle. Make sure your arm is visible.".
Definition head_moving_line : string :=
  "You are moving your head vertically during the stroke. Try to keep your head still to improve balance and consistency.".
Definition head_stable_line : string :=
  "Excellent head stability! Keeping your head still is key.".
Definition head_unknown_line : string :=
  "Could not determine head movement. Ensure you are visible at the start and end of the clip.".

(** The test of line 70: [frame_landmarks and len(frame_landmarks) > 16]. *)
Definition qualifying (frame_landmarks : FrameLandmarks) : bool :=
  truthy frame_landmarks && (16 <? len frame_landmarks)%Z.

(** Lines 72-75: the right elbow angle of one frame. *)
Definition right_elbow_angle (frame_landmarks : FrameLandmarks) : result R :=
  s <- getitem frame_landmarks 12 ;;
  e <- getitem frame_landmarks 14 ;;
  w <- getitem frame_landmarks 16 ;;
  Ok (calculate_angle (x s, y s) (x e, y e) (x w, y w)).

(** Lines 69-77: the loop over the frames, threading [min_elbow_angle]. *)
Fixpoint min_elbow_loop (landmarks_per_frame : LandmarkTrace)
         (min_elbow_angle : R) : result R :=
  match landmarks_per_frame with
  | [] => Ok min_elbow_angle
  | frame_landmarks :: rest =>
      if qualifying frame_landmarks then
        angle <- right_elbow_angle frame_landmarks ;;
        min_elbow_loop rest
          (if Rlt_dec angle min_elbow_angle then angle else min_elbow_angle)
      else min_elbow_loop rest min_elbow_angle
  end.

(** Lines 79-84: the line chosen from the minimum. *)
Definition elbow_line (min_elbow_angle : R) : string :=
  if Rlt_dec min_elbow_angle 90 then arm_bent_line min_elbow_angle
  else if Req_dec_T min_elbow_angle 180 then arm_unknown_line
  else arm_good_line.

(** Lines 68-84: "1. Elbow Angle Analysis", appending to [feedback]. *)
Definition elbow_angle_analysis (landmarks_per_frame : LandmarkTrace)
           (feedback : list string) : result (list string) :=
  min_elbow_angle <- min_elbow_loop landmarks_per_frame 180 ;;
  Ok (feedback ++ [elbow_line min_elbow_angle]).

(** Lines 88-101: "2. Head Movement Analysis", appending to [feedback].
    The [and] chain of line 88 evaluates left to right and stops at the
    first false operand, so the two subscripts are only evaluated for a
    trace of length above 1. *)
Definition head_movement_analysis (landmarks_per_frame : LandmarkTrace)
           (feedback : list string) : result (list string) :=
  if truthy landmarks_per_frame && (1 <? len landmarks_per_frame)%Z then
    first <- getitem landmarks_per_frame 0 ;;
    if truthy first then
      last <- getitem landmarks_per_frame (-1) ;;
      if truthy last then
        if (0 <? len first)%Z && (0 <? len last)%Z then
          initial_nose <- getitem first 0 ;;
          final_nose <- getitem last 0 ;;
          let movement := Rabs (y initial_nose - y final_nose) in
          if Rlt_dec (5 / 100) movement
          then Ok (feedback ++ [head_moving_line])
          else Ok (feedback ++ [head_stable_line])
        else Ok (feedback ++ [head_unknown_line])
      else Ok feedback
    else Ok feedback
  else Ok feedback.

(** [analyze_landmarks(landmarks_per_frame)] *)
Definition analyze_landmarks (landmarks_per_frame : LandmarkTrace)
  : result (list string) :=
  feedback <- elbow_angle_analysis landmarks_per_frame [] ;;
  head_movement_analysis landmarks_per_frame feedback.

End Analysis.

(* ================================================================== *)
(** * The API endpoint *)
(* ================================================================== *)

Module Endpoint.

Import Analysis.

(** Line 142: [int((frame_number / fps) * 1000)]. *)
Definition frame_timestamp_ms (frame_number : Z) (fps : Q) : result Z :=
  (q <- truediv (inject_Z frame_number) fps ;;
   Ok (int_of_rat (q * 1000)))%py.

(** Lines 125-128: the frame rate after the fallback. *)
Definition effective_fps (fps : Q) : Q :=
  if Qeq_bool fps 0 then 30%Q else fps.

(** The body and the status of a reply: the two JSON bodies of the view,
    and the page Flask itself sends when an exception leaves the view. *)
Inductive Body : Type :=
| AnalysisSuccessful (landmarks : LandmarkTrace) (feedback : list string)
| Error (error : string)
| InternalServerError.

(** Line 118: [os.path.join(app.config['UPLOAD_FOLDER'], filename)], the
    upload folder being ['uploads']: an absolute [filename] replaces the
    folder, any other is appended to it. *)
Definition video_path (filename : string) : string :=
  if String.prefix "/" filename then filename
  else ("uploads/" ++ filename)%string.

Record Response : Type := mkResponse {
  body : Body;
  status : Z
}.

Section Pipeline.

(** A decoded image, and the internal tracking state of the long-lived
    [landmarker]. *)
Variable Frame : Type.
Variable Detector : Type.

(** [landmarker.detect_for_video(mp_image, frame_timestamp_ms)]: the
    [pose_landmarks] of the result, or an exception, and the landmarker
    afterwards.  The colour conversion of line 139 is a total function of
    the frame and is left inside [Frame]. *)
Variable detect_for_video :
  Detector -> Frame -> Z -> result (list FrameLandmarks) * Detector.

(** What [cv2.VideoCapture(video_path)] finds: whether the source opened,
    the frame rate of the container, and the frames [read()] delivers
    before it reports [ret = False].  OpenCV reports a failure to open or
    to decode through these return values; its calls do not raise. *)
Record VideoCapture : Type := mkVideoCapture {
  isOpened : bool;
  CAP_PROP_FPS : Q;
  frames : list Frame
}.

(** The uploaded file of a request: its name, what werkzeug's
    [secure_filename] makes of that name (the empty string for a name such
    as [..], which has no character it keeps), and the video in it. *)
Record Upload : Type := mkUpload {
  filename : string;
  secure_name : string;
  content : VideoCapture
}.

(** The state the endpoint acts on. *)
Record World : Type := mkWorld {
  landmarker : Detector;
  detector_timestamps : list Z;   (* timestamps handed to the detector *)
  cap_released : bool;            (* [cap.release()] has been called *)
  on_disk : bool                  (* the upload of the request is on disk *)
}.

(** Stateful computations that may raise; the state survives a raise. *)
Definition M (A : Type) : Type := World -> result A * World.

Definition ret {A : Type} (a : A) : M A := fun w => (Ok a, w).

Definition bindM {A B : Type} (m : M A) (k : A -> M B) : M B :=
  fun w =>
    match m w with
    | (Ok a, w') => k a w'
    | (Raise e, w') => (Raise e, w')
    end.

Definition lift {A : Type} (r : result A) : M A := fun w => (r, w).

Local Notation "x <~ m ;; k" := (bindM m (fun x => k))
  (at level 61, m at next level, right associativity).

(** The world after one detector call, and after a change of one flag. *)
Definition after_call (w : World) (d : Detector) (ts : Z) : World :=
  {| landmarker := d;
     detector_timestamps := detector_timestamps w ++ [ts];
     cap_released := cap_released w;
     on_disk := on_disk w |}.

Definition with_released (b : bool) (w : World) : World :=
  {| landmarker := landmarker w;
     detector_timestamps := detector_timestamps w;
     cap_released := b;
     on_disk := on_disk w |}.

Definition set_on_disk (b : bool) (w : World) : World :=
  {| landmarker := landmarker w;
     detector_timestamps := detector_timestamps w;
     cap_released := cap_released w;
     on_disk := b |}.

Definition detect (frame : Frame) (ts : Z) : M (list FrameLandmarks) :=
  fun w =>
    let (r, d) := detect_for_video (landmarker w) frame ts in
    (r, after_call w d ts).

(** [cv2.VideoCapture(video_path)] and [cap.release()] *)
Definition open_capture : M unit :=
  fun w => (Ok tt, with_released false w).

Definition release : M unit :=
  fun w => (Ok tt, with_released true w).

(** Line 119: [file.save(video_path)].  When [video_path] is the upload
    folder itself (line 46 has created it), opening it for writing raises
    and nothing is written; any other path is written.  Other failures of
    the file system are not modelled. *)
Definition file_save (video_path : string) : M unit :=
  fun w =>
    if String.eqb video_path "uploads/"
    then (Raise (External "[Errno 21] Is a directory: 'uploads/'"),
          set_on_disk false w)
    else (Ok tt, set_on_disk true w).

(** Lines 133-152: the [while] loop, on the frames still to be read. *)
Fixpoint frame_loop (fps : Q) (pending : list Frame) (frame_number : Z)
         (all_landmarks : LandmarkTrace) : M LandmarkTrace :=
  match pending with
  | [] => ret all_landmarks                      (* [not ret]: break *)
  | frame :: rest =>
      ts <~ lift (frame_timestamp_ms frame_number fps) ;;
      pose_landmarks <~ detect frame ts ;;
      let frame_landmarks :=
        match pose_landmarks with
        | [] => []
        | first_pose :: _ => first_pose
        end in
      frame_loop fps rest (frame_number + 1)
                 (all_landmarks ++ [frame_landmarks])
  end.

(** Lines 124-163: the body of the [try] block. *)
Definition try_block (cap : VideoCapture)
  : M (LandmarkTrace * list string) :=
  _ <~ open_capture ;;
  let fps := effective_fps (CAP_PROP_FPS cap) in
  all_landmarks <~
    frame_loop fps (if isOpened cap then frames cap else []) 0 [] ;;
  _ <~ release ;;
  feedback <~ lift (analyze_landmarks all_landmarks) ;;
  ret (all_landmarks, feedback).

(** [analyze_video_endpoint()], on the [video] entry of [request.files]
    ([None] when there is none). *)
Definition analyze_video_endpoint (video : option Upload) (w : World)
  : Response * World :=
  match video with
  | None => (mkResponse (Error "No video file provided") 400, w)
  | Some file =>
      if String.eqb (filename file) "" then
        (mkResponse (Error "No selected file") 400, w)
      else
        let filename := secure_name file in
        match file_save (video_path filename) w with
        | (Raise _, w) =>
            (* lines 117-119 stand before the [try]: the exception leaves
               the view *)
            (mkResponse InternalServerError 500, w)
        | (Ok _, w) =>
            match try_block (content file) w with
            | (Ok (all_landmarks, feedback), w') =>
                (mkResponse (AnalysisSuccessful all_landmarks feedback) 200,
                 set_on_disk false w')                      (* finally *)
            | (Raise e, w') =>
                (mkResponse (Error (str e)) 500,
                 set_on_disk false w')                      (* finally *)
            end
        end
  end.

(** The state a request starts from. *)
Definition start (d : Detector) : World :=
  {| landmarker := d;
     detector_timestamps := [];
     cap_released := false;
     on_disk := false |}.

End Pipeline.

End Endpoint.

(* ================================================================== *)
(** * Sample inputs *)
(* ================================================================== *)

Module Samples.

Import Analysis Endpoint.
Local Open Scope R_scope.

(** A landmark at [(px, py)]. *)
Definition at_xy (px py : R) : Landmark := mkLandmark px py 0 1.

(** A 17-point frame with the right shoulder, elbow and wrist (indices 12,
    14 and 16) at the given points and every other point at the origin. *)
Definition arm_frame (shoulder elbow wrist : Point) : FrameLandmarks :=
  repeat (at_xy 0 0) 12
    ++ [at_xy (fst shoulder) (snd shoulder); at_xy 0 0;
        at_xy (fst elbow) (snd elbow); at_xy 0 0;
        at_xy (fst wrist) (snd wrist)].

(** A straight arm along the x axis: the elbow angle is exactly 180. *)
Definition straight_arm : FrameLandmarks := arm_frame (-1, 0) (0, 0) (1, 0).

(** An arm bent to 45 degrees. *)
Definition bent_arm : FrameLandmarks := arm_frame (1, 0) (0, 0) (1, 1).

(** An arm bent to 75 degrees. *)
Definition bent_arm_75 : FrameLandmarks :=
  arm_frame (1, 0) (0, 0) (cos (75 * PI / 180), sin (75 * PI / 180)).

(** An arm bent to a right angle. *)
Definition right_angle_arm : FrameLandmarks := arm_frame (0, 1) (0, 0) (1, 0).

(** The ten-frame clip of the end-to-end scenario: nobody in frames 0 to 8,
    a 17-point pose in frame 9. *)
Definition late_entry : LandmarkTrace := repeat [] 9 ++ [right_angle_arm].


(** A landmarker that finds nobody, and one whose every call raises. *)
Definition blind_detector (_ : unit) (_ : unit) (_ : Z)
  : result (list FrameLandmarks) * unit := (Ok [], tt).
Definition failing_detector (_ : unit) (_ : unit) (_ : Z)
  : result (list FrameLandmarks) * unit :=
  (Raise (External "detector failure"), tt).

(** A landmarker that finds nobody and, as MediaPipe does in video mode,
    rejects a timestamp that is not above the previous one. *)
Definition strict_detector (last : option Z) (_ : unit) (ts : Z)
  : result (list FrameLandmarks) * option Z :=
  match last with
  | Some t =>
      if (ts <=? t)%Z
      then (Raise (External "Input timestamp must be monotonically increasing."),
            last)
      else (Ok [], Some ts)
  | None => (Ok [], Some ts)
  end.

Definition clip (fps : Q) (n : nat) : VideoCapture unit :=
  mkVideoCapture true fps (repeat tt n).

End Samples.

(* ================================================================== *)
(** * Variants of the detector *)
(* ================================================================== *)

Module Variants.

Import Analysis.

(** The detector [detect] with every detection cut down to its first
    pose. *)
Definition first_pose_only (Frame Detector : Type)
           (detect : Detector -> Frame -> Z
                     -> result (list FrameLandmarks) * Detector)
  : Detector -> Frame -> Z -> result (list FrameLandmarks) * Detector :=
  fun d frame ts =>
    let (r, d') := detect d frame ts in
    (match r with
     | Ok poses => Ok (firstn 1 poses)
     | Raise e => Raise e
     end, d').

End Variants.

(* ================================================================== *)
(** * Properties of the analysis helpers *)
(* ================================================================== *)

Module AnalysisFacts.

Import Analysis Samples.
Local Open Scope R_scope.

(** ** [arctan2] *)

Lemma atan_nonpos (t : R) : t <= 0 -> atan t <= 0.
Proof.
  intros [Hlt | Heq].
  - left. rewrite <- atan_0. now apply atan_increasing.
  - subst. rewrite atan_0. lra.
Qed.

Lemma atan_nonneg (t : R) : 0 <= t -> 0 <= atan t.
Proof.
  intros [Hlt | Heq].
  - left. rewrite <- atan_0. now apply atan_increasing.
  - subst. rewrite atan_0. lra.
Qed.

Lemma arctan2_range (v u : R) : - PI <= arctan2 v u <= PI.
Proof.
  pose proof PI_RGT_0 as Hpi.
  pose proof (atan_bound (v / u)) as Hb.
  unfold arctan2.
  destruct (Rlt_dec 0 u) as [Hu | Hu]; [lra |].
  destruct (Rlt_dec u 0) as [Hn | Hn].
  - destruct (Rle_dec 0 v) as [Hv | Hv].
    + assert (atan (v / u) <= 0).
      { apply atan_nonpos. unfold Rdiv.
        assert (/ u < 0) by now apply Rinv_lt_0_compat.
        nra. }
      lra.
    + assert (0 <= atan (v / u)).
      { apply atan_nonneg. unfold Rdiv.
        assert (/ u < 0) by now apply Rinv_lt_0_compat.
        nra. }
      lra.
  - destruct (Rlt_dec 0 v); [lra |].
    destruct (Rlt_dec v 0); lra.
Qed.

(** ** [calculate_angle] *)

Lemma folded_range (r : R) :
  - (2 * PI) <= r <= 2 * PI -> 0 <= Rabs (r * 180 / PI) <= 360.
Proof.
  intros Hr. pose proof PI_RGT_0 as Hpi.
  split; [apply Rabs_pos |].
  apply Rabs_le.
  assert (Hinv : 0 < / PI) by now apply Rinv_0_lt_compat.
  assert (Hone : PI * / PI = 1) by (apply Rinv_r; lra).
  unfold Rdiv. split; nra.
Qed.

Lemma calculate_angle_range (a b c : Point) :
  0 <= calculate_angle a b c <= 180.
Proof.
  unfold calculate_angle.
  set (r := arctan2 _ _ - arctan2 _ _).
  assert (Hr : - (2 * PI) <= r <= 2 * PI).
  { subst r.
    pose proof (arctan2_range (snd c - snd b) (fst c - fst b)).
    pose proof (arctan2_range (snd a - snd b) (fst a - fst b)).
    lra. }
  pose proof (folded_range Hr) as Hf.
  destruct (Rlt_dec 180 (Rabs (r * 180 / PI))); lra.
Qed.

Lemma calculate_angle_swap (a b c : Point) :
  calculate_angle a b c = calculate_angle c b a.
Proof.
  unfold calculate_angle.
  set (p := arctan2 (snd c - snd b) (fst c - fst b)).
  set (q := arctan2 (snd a - snd b) (fst a - fst b)).
  replace ((q - p) * 180 / PI) with (- ((p - q) * 180 / PI))
    by (unfold Rdiv; ring).
  now rewrite Rabs_Ropp.
Qed.

(** C6.  For all points [a], [b], [c], [calculate_angle a b c] equals
    [calculate_angle c b a], and the value returned lies in [[0, 180]]. *)
Theorem calculate_angle_symmetric_bounded (a b c : Point) :
  calculate_angle a b c = calculate_angle c b a
  /\ 0 <= calculate_angle a b c <= 180.
Proof.
  split.
  - apply calculate_angle_swap.
  - apply calculate_angle_range.
Qed.

(** ** Subscripts *)

Lemma getitem_in_range (A : Type) (l : list A) (i : Z) :
  (0 <= i < len l)%Z -> exists a, getitem l i = Ok a.
Proof.
  intros Hi. unfold getitem, len in *.
  destruct (i <? 0)%Z eqn:Hneg; [lia |]. rewrite Hneg.
  destruct (nth_error l (Z.to_nat i)) as [a |] eqn:Hn.
  - now exists a.
  - apply nth_error_None in Hn. lia.
Qed.

Lemma getitem_0_cons (A : Type) (a : A) (l : list A) :
  getitem (a :: l) 0 = Ok a.
Proof. reflexivity. Qed.

Lemma getitem_last (A : Type) (l : list A) (a : A) :
  getitem (l ++ [a]) (-1) = Ok a.
Proof.
  unfold getitem, len. change (-1 <? 0)%Z with true. cbv iota.
  rewrite List.length_app. simpl List.length.
  replace (-1 + Z.of_nat (List.length l + 1))%Z
    with (Z.of_nat (List.length l)) by lia.
  destruct (Z.ltb_spec (Z.of_nat (List.length l)) 0) as [Hneg | _]; [lia |].
  rewrite Nat2Z.id, nth_error_app2, Nat.sub_diag by lia.
  reflexivity.
Qed.

(** ** The elbow loop *)

Lemma right_elbow_angle_total (fl : FrameLandmarks) :
  qualifying fl = true -> exists a, right_elbow_angle fl = Ok a.
Proof.
  unfold qualifying. intros Hq.
  apply andb_true_iff in Hq as [_ Hlen]. apply Z.ltb_lt in Hlen.
  unfold right_elbow_angle.
  destruct (@getitem_in_range _ fl 12) as [s Hs]; [lia |].
  destruct (@getitem_in_range _ fl 14) as [e He]; [lia |].
  destruct (@getitem_in_range _ fl 16) as [w Hw]; [lia |].
  rewrite Hs, He, Hw. simpl. eauto.
Qed.

Lemma right_elbow_angle_range (fl : FrameLandmarks) (a : R) :
  right_elbow_angle fl = Ok a -> 0 <= a <= 180.
Proof.
  unfold right_elbow_angle.
  destruct (getitem fl 12); simpl; [| discriminate].
  destruct (getitem fl 14); simpl; [| discriminate].
  destruct (getitem fl 16); simpl; [| discriminate].
  intros [= <-]. apply calculate_angle_range.
Qed.

(** The loop never raises; its result is the least of the start value and
    the angles of the qualifying frames. *)
Lemma min_elbow_loop_spec (lpf : LandmarkTrace) :
  forall m, exists m',
    min_elbow_loop lpf m = Ok m'
    /\ m' <= m
    /\ (forall fl a, In fl lpf -> qualifying fl = true ->
                     right_elbow_angle fl = Ok a -> m' <= a)
    /\ (m' = m \/ exists fl, In fl lpf /\ qualifying fl = true
                              /\ right_elbow_angle fl = Ok m').
Proof.
  induction lpf as [| fl rest IH]; intros m; simpl.
  - exists m. repeat split; [lra | intros ? ? [] | now left].
  - destruct (qualifying fl) eqn:Hq.
    + destruct (right_elbow_angle_total fl Hq) as [a Ha].
      rewrite Ha. simpl.
      destruct (IH (if Rlt_dec a m then a else m))
        as (m' & Hrun & Hle & Hlow & Hwho).
      exists m'. split; [exact Hrun |].
      assert (Hboth : m' <= m /\ m' <= a)
        by (destruct (Rlt_dec a m); lra).
      split; [tauto |]. split.
      * intros fl' a' [<- | Hin] Hq' Ha'.
        -- rewrite Ha in Ha'. injection Ha' as <-. tauto.
        -- eauto.
      * destruct Hwho as [Heq | (fl' & Hin & Hq' & Ha')].
        -- destruct (Rlt_dec a m).
           ++ right. exists fl. subst m'. auto.
           ++ now left.
        -- right. exists fl'. auto.
    + destruct (IH m) as (m' & Hrun & Hle & Hlow & Hwho).
      exists m'. split; [exact Hrun |]. split; [exact Hle |]. split.
      * intros fl' a' [<- | Hin] Hq' Ha'; [congruence | eauto].
      * destruct Hwho as [Heq | (fl' & Hin & Hq' & Ha')];
          [now left | right; exists fl'; auto].
Qed.


(** ** The line chosen from the minimum *)

Lemma elbow_line_180 : elbow_line 180 = arm_unknown_line.
Proof.
  unfold elbow_line.
  destruct (Rlt_dec 180 90); [lra |].
  destruct (Req_dec_T 180 180); [reflexivity | lra].
Qed.

Lemma elbow_line_bent (m : R) : m < 90 -> elbow_line m = arm_bent_line m.
Proof. intros Hm. unfold elbow_line. destruct (Rlt_dec m 90); [reflexivity | lra]. Qed.

Lemma elbow_line_good (m : R) :
  90 <= m -> m <> 180 -> elbow_line m = arm_good_line.
Proof.
  intros Hm Hne. unfold elbow_line.
  destruct (Rlt_dec m 90); [lra |].
  destruct (Req_dec_T m 180); [contradiction | reflexivity].
Qed.

Lemma arm_bent_line_not_unknown (m : R) : arm_bent_line m <> arm_unknown_line.
Proof. unfold arm_bent_line. simpl. discriminate. Qed.

Lemma arm_good_line_not_unknown : arm_good_line <> arm_unknown_line.
Proof. discriminate. Qed.

Lemma elbow_line_unknown_iff (m : R) :
  elbow_line m = arm_unknown_line <-> m = 180.
Proof.
  split.
  - unfold elbow_line.
    destruct (Rlt_dec m 90).
    + intros H. now apply arm_bent_line_not_unknown in H.
    + destruct (Req_dec_T m 180); [auto | discriminate].
  - intros ->. apply elbow_line_180.
Qed.

(** ** The head section *)

Lemma len_ends (A : Type) (a b : A) (mid : list A) :
  (1 <? len (a :: mid ++ [b]))%Z = true.
Proof.
  apply Z.ltb_lt. unfold len. simpl List.length.
  rewrite List.length_app. simpl List.length. lia.
Qed.

Lemma ends_of_long (A : Type) (l : list A) :
  (1 < len l)%Z -> exists a mid b, l = a :: mid ++ [b].
Proof.
  unfold len. intros Hl.
  destruct l as [| a l]; [simpl in Hl; lia |].
  destruct (exists_last (l := l)) as (mid & b & ->).
  - intros ->. simpl in Hl. lia.
  - now exists a, mid, b.
Qed.

(** The head section on a trace of two frames or more, by the shape of its
    first and last frame. *)
Lemma head_movement_on_ends (f0 f1 : FrameLandmarks) (mid : LandmarkTrace)
      (fb : list string) :
  head_movement_analysis (f0 :: mid ++ [f1]) fb =
  match f0, f1 with
  | n0 :: _, n1 :: _ =>
      Ok (fb ++ [if Rlt_dec (5 / 100) (Rabs (y n0 - y n1))
                 then head_moving_line else head_stable_line])
  | _, _ => Ok fb
  end.
Proof.
  unfold head_movement_analysis.
  rewrite len_ends. cbn [truthy andb].
  rewrite getitem_0_cons. cbn [bind].
  destruct f0 as [| n0 r0]; [reflexivity |]. cbn [truthy].
  rewrite app_comm_cons, getitem_last. cbn [bind].
  destruct f1 as [| n1 r1]; [reflexivity |]. cbn [truthy].
  replace (0 <? len (n0 :: r0))%Z with true
    by (symmetry; apply Z.ltb_lt; unfold len; simpl List.length; lia).
  replace (0 <? len (n1 :: r1))%Z with true
    by (symmetry; apply Z.ltb_lt; unfold len; simpl List.length; lia).
  cbn [andb]. rewrite !getitem_0_cons. cbn [bind].
  destruct (Rlt_dec (5 / 100) (Rabs (y n0 - y n1))); reflexivity.
Qed.

(** Fewer than two frames: the head section adds nothing. *)
Lemma head_movement_short (lpf : LandmarkTrace) (fb : list string) :
  (len lpf < 2)%Z -> head_movement_analysis lpf fb = Ok fb.
Proof.
  intros Hl. unfold head_movement_analysis.
  replace (1 <? len lpf)%Z with false by (symmetry; apply Z.ltb_ge; lia).
  now rewrite andb_false_r.
Qed.

(** An empty first or last frame: the head section adds nothing, because
    the test of line 88 already requires both to be non-empty. *)
Lemma head_movement_empty_end (f0 f1 : FrameLandmarks) (mid : LandmarkTrace)
      (fb : list string) :
  f0 = [] \/ f1 = [] ->
  head_movement_analysis (f0 :: mid ++ [f1]) fb = Ok fb.
Proof.
  intros H. rewrite head_movement_on_ends.
  destruct H as [-> | ->]; [reflexivity | now destruct f0].
Qed.

(** The [else] branch of line 100 is never taken. *)
Lemma head_unknown_line_unreachable (lpf : LandmarkTrace) (fb : list string) :
  head_movement_analysis lpf fb = Ok fb
  \/ head_movement_analysis lpf fb = Ok (fb ++ [head_moving_line])
  \/ head_movement_analysis lpf fb = Ok (fb ++ [head_stable_line]).
Proof.
  destruct (Z_lt_le_dec (len lpf) 2) as [Hs | Hl].
  - left. now apply head_movement_short.
  - destruct (@ends_of_long _ lpf) as (f0 & mid & f1 & ->); [lia |].
    rewrite head_movement_on_ends.
    destruct f0 as [| n0 r0]; [now left |].
    destruct f1 as [| n1 r1]; [now left |].
    right. destruct (Rlt_dec (5 / 100) (Rabs (y n0 - y n1))); auto.
Qed.

(** ** The whole analysis *)

(** [analyze_landmarks] never raises: it returns the elbow line followed by
    what the head section adds. *)
Lemma analyze_landmarks_total (lpf : LandmarkTrace) :
  exists m, min_elbow_loop lpf 180 = Ok m
            /\ analyze_landmarks lpf
               = head_movement_analysis lpf [elbow_line m]
            /\ exists fb, analyze_landmarks lpf = Ok (elbow_line m :: fb).
Proof.
  destruct (min_elbow_loop_spec lpf 180) as (m & Hrun & _).
  exists m. split; [exact Hrun |].
  assert (Heq : analyze_landmarks lpf
                = head_movement_analysis lpf [elbow_line m]).
  { unfold analyze_landmarks, elbow_angle_analysis. now rewrite Hrun. }
  split; [exact Heq |]. rewrite Heq.
  destruct (head_unknown_line_unreachable lpf [elbow_line m])
    as [-> | [-> | ->]]; simpl; eauto.
Qed.

(** ** Angles of the sample frames *)

Lemma arctan2_right (v u : R) : 0 < u -> arctan2 v u = atan (v / u).
Proof. intros Hu. unfold arctan2. destruct (Rlt_dec 0 u); [reflexivity | lra]. Qed.

Lemma arctan2_0_1 : arctan2 0 1 = 0.
Proof.
  rewrite arctan2_right by lra.
  replace (0 / 1) with 0 by field. apply atan_0.
Qed.

Lemma arctan2_1_1 : arctan2 1 1 = PI / 4.
Proof.
  rewrite arctan2_right by lra.
  replace (1 / 1) with 1 by field. apply atan_1.
Qed.

Lemma arctan2_0_m1 : arctan2 0 (-1) = PI.
Proof.
  unfold arctan2.
  destruct (Rlt_dec 0 (-1)); [lra |].
  destruct (Rlt_dec (-1) 0); [| lra].
  destruct (Rle_dec 0 0); [| lra].
  replace (0 / -1) with 0 by field. rewrite atan_0. ring.
Qed.

(** When the difference of the two directions is [d] degrees, with
    [|d| <= 180], the angle is [|d|]. *)
Lemma calculate_angle_degrees (a b c : Point) (d : R) :
  arctan2 (snd c - snd b) (fst c - fst b)
  - arctan2 (snd a - snd b) (fst a - fst b) = d * PI / 180 ->
  - 180 <= d <= 180 ->
  calculate_angle a b c = Rabs d.
Proof.
  intros Hd Hrange. unfold calculate_angle. rewrite Hd.
  replace (d * PI / 180 * 180 / PI) with d by (field; apply PI_neq0).
  destruct (Rlt_dec 180 (Rabs d)) as [Hbig | _]; [| reflexivity].
  exfalso. apply (Rlt_irrefl 180).
  apply Rlt_le_trans with (1 := Hbig). now apply Rabs_le.
Qed.

Lemma calculate_angle_straight :
  calculate_angle (-1, 0) (0, 0) (1, 0) = 180.
Proof.
  rewrite (@calculate_angle_degrees _ _ _ (-180)).
  - unfold Rabs. destruct (Rcase_abs (-180)); lra.
  - cbn [fst snd].
    replace (0 - 0) with 0 by ring. replace (1 - 0) with 1 by ring.
    replace (-1 - 0) with (-1) by ring.
    rewrite arctan2_0_1, arctan2_0_m1. field.
  - lra.
Qed.

Lemma calculate_angle_45 :
  calculate_angle (1, 0) (0, 0) (1, 1) = 45.
Proof.
  rewrite (@calculate_angle_degrees _ _ _ 45).
  - apply Rabs_pos_eq. lra.
  - cbn [fst snd].
    replace (0 - 0) with 0 by ring. replace (1 - 0) with 1 by ring.
    rewrite arctan2_0_1, arctan2_1_1. field.
  - lra.
Qed.

Lemma right_elbow_angle_arm_frame (s e w : Point) :
  right_elbow_angle (arm_frame s e w) = Ok (calculate_angle s e w).
Proof. destruct s, e, w. reflexivity. Qed.

Lemma qualifying_arm_frame (s e w : Point) :
  qualifying (arm_frame s e w) = true.
Proof. reflexivity. Qed.

Lemma min_elbow_loop_straight_arm :
  min_elbow_loop [straight_arm] 180 = Ok 180.
Proof.
  unfold straight_arm. cbn [min_elbow_loop].
  rewrite qualifying_arm_frame, right_elbow_angle_arm_frame.
  cbn [bind]. rewrite calculate_angle_straight.
  destruct (Rlt_dec 180 180); [lra | reflexivity].
Qed.

Lemma min_elbow_loop_bent_arm :
  min_elbow_loop [bent_arm] 180 = Ok 45.
Proof.
  unfold bent_arm. cbn [min_elbow_loop].
  rewrite qualifying_arm_frame, right_elbow_angle_arm_frame.
  cbn [bind]. rewrite calculate_angle_45.
  destruct (Rlt_dec 45 180); [reflexivity | lra].
Qed.

Lemma int_of_real_nonneg (r : R) : 0 <= r -> int_of_real r = Zfloor r.
Proof. intros Hr. unfold int_of_real. destruct (Rle_dec 0 r); [reflexivity | contradiction]. Qed.

Lemma int_of_real_45 : int_of_real 45 = 45%Z.
Proof. rewrite int_of_real_nonneg by lra. apply ZfloorZ. Qed.

Lemma arctan2_1_0 : arctan2 1 0 = PI / 2.
Proof.
  unfold arctan2.
  destruct (Rlt_dec 0 0); [lra |].
  destruct (Rlt_dec 0 1); [reflexivity | lra].
Qed.

Lemma calculate_angle_right :
  calculate_angle (0, 1) (0, 0) (1, 0) = 90.
Proof.
  rewrite (@calculate_angle_degrees _ _ _ (-90)).
  - unfold Rabs. destruct (Rcase_abs (-90)); lra.
  - cbn [fst snd].
    replace (0 - 0) with 0 by ring. replace (1 - 0) with 1 by ring.
    rewrite arctan2_0_1, arctan2_1_0. field.
  - lra.
Qed.

Lemma min_elbow_loop_empty_frames (n : nat) (rest : LandmarkTrace) (m : R) :
  min_elbow_loop (repeat [] n ++ rest) m = min_elbow_loop rest m.
Proof. induction n as [| n IH]; [reflexivity | exact IH]. Qed.

Lemma min_elbow_loop_late_entry : min_elbow_loop late_entry 180 = Ok 90.
Proof.
  unfold late_entry, right_angle_arm.
  rewrite min_elbow_loop_empty_frames.
  change (min_elbow_loop [?f] ?m)
    with (if qualifying f
          then bind (right_elbow_angle f)
                 (fun angle => Ok (if Rlt_dec angle m then angle else m))
          else Ok m).
  rewrite qualifying_arm_frame, right_elbow_angle_arm_frame.
  cbn [bind]. rewrite calculate_angle_right.
  destruct (Rlt_dec 90 180); [reflexivity | lra].
Qed.

(** ** The claims on [analyze_landmarks] *)

(** C1, at a failing input.  On the ten-frame clip whose frames 0 to 8 are
    empty and whose frame 9 holds a 17-point pose, [analyze_landmarks]
    returns the elbow line alone: no "could not determine head movement"
    line follows it, although the trace has two frames or more and an
    empty first frame. *)
Theorem late_entry_has_no_head_line :
  (2 <= len late_entry)%Z
  /\ getitem late_entry 0 = Ok []
  /\ analyze_landmarks late_entry = Ok [arm_good_line].
Proof.
  split; [unfold len; simpl; lia |].
  split; [reflexivity |].
  destruct (analyze_landmarks_total late_entry) as (m & Hrun & -> & _).
  rewrite min_elbow_loop_late_entry in Hrun. injection Hrun as <-.
  rewrite elbow_line_good by lra.
  change late_entry with ([] :: repeat [] 8 ++ [right_angle_arm]).
  apply head_movement_empty_end. now left.
Qed.

(** C4, counterexample.  A one-frame trace whose frame qualifies (17
    points) and shows a perfectly straight arm gets the "could not
    determine elbow angle" line, and neither of the other two. *)
Lemma straight_arm_reported_unknown :
  In straight_arm [straight_arm]
  /\ qualifying straight_arm = true
  /\ right_elbow_angle straight_arm = Ok 180
  /\ analyze_landmarks [straight_arm] = Ok [arm_unknown_line]
  /\ arm_unknown_line <> arm_good_line
  /\ (forall m, arm_unknown_line <> arm_bent_line m).
Proof.
  split; [now left |]. split; [reflexivity |].
  split.
  { unfold straight_arm. rewrite right_elbow_angle_arm_frame.
    now rewrite calculate_angle_straight. }
  split.
  { destruct (analyze_landmarks_total [straight_arm]) as (m & Hrun & -> & _).
    rewrite min_elbow_loop_straight_arm in Hrun. injection Hrun as <-.
    rewrite elbow_line_180. now apply head_movement_short. }
  split; [discriminate |].
  intros m H. symmetry in H. now apply arm_bent_line_not_unknown in H.
Qed.

(** C4, amended.  [analyze_landmarks] never raises and always starts its
    report with one elbow line.  That line is the "could not determine
    elbow angle" line exactly when no qualifying frame has an elbow angle
    other than 180: in particular on a trace with zero frames or with no
    qualifying frame.  Whenever some qualifying frame has an angle below
    180, the bent-arm or the good-extension line is emitted instead. *)
Theorem elbow_unknown_iff_no_bend (lpf : LandmarkTrace) :
  exists line rest,
    analyze_landmarks lpf = Ok (line :: rest)
    /\ (line = arm_unknown_line <->
        forall fl a, In fl lpf -> qualifying fl = true ->
                     right_elbow_angle fl = Ok a -> a = 180)
    /\ ((forall fl, In fl lpf -> qualifying fl = false) ->
        line = arm_unknown_line)
    /\ ((exists fl a, In fl lpf /\ qualifying fl = true
                      /\ right_elbow_angle fl = Ok a /\ a < 180) ->
        line = arm_good_line \/ exists m, line = arm_bent_line m).
Proof.
  destruct (analyze_landmarks_total lpf) as (m & Hrun & _ & rest & Hall).
  destruct (min_elbow_loop_spec lpf 180)
    as (m' & Hrun' & Hle & Hlow & Hwho).
  rewrite Hrun in Hrun'. injection Hrun' as <-.
  exists (elbow_line m), rest. split; [exact Hall |].
  assert (Hiff : m = 180 <->
                 forall fl a, In fl lpf -> qualifying fl = true ->
                              right_elbow_angle fl = Ok a -> a = 180).
  { split.
    - intros -> fl a Hin Hq Ha.
      pose proof (Hlow fl a Hin Hq Ha).
      pose proof (right_elbow_angle_range fl Ha). lra.
    - intros Hflat. destruct Hwho as [-> | (fl & Hin & Hq & Ha)]; eauto. }
  split; [rewrite elbow_line_unknown_iff; exact Hiff |].
  split.
  - intros Hnone. apply elbow_line_unknown_iff, Hiff.
    intros fl a Hin Hq. rewrite (Hnone fl Hin) in Hq. discriminate.
  - intros (fl & a & Hin & Hq & Ha & Hlt).
    pose proof (Hlow fl a Hin Hq Ha).
    destruct (Rlt_dec m 90) as [Hb | Hb].
    + right. exists m. now apply elbow_line_bent.
    + left. apply elbow_line_good; lra.
Qed.

Lemma head_lines_differ : head_moving_line <> head_stable_line.
Proof. discriminate. Qed.

Lemma analyze_landmarks_on_ends (n0 n1 : Landmark) (r0 r1 : FrameLandmarks)
      (mid : LandmarkTrace) :
  exists m,
    min_elbow_loop ((n0 :: r0) :: mid ++ [n1 :: r1]) 180 = Ok m
    /\ analyze_landmarks ((n0 :: r0) :: mid ++ [n1 :: r1])
       = Ok [elbow_line m;
             if Rlt_dec (5 / 100) (Rabs (y n0 - y n1))
             then head_moving_line else head_stable_line].
Proof.
  destruct (analyze_landmarks_total ((n0 :: r0) :: mid ++ [n1 :: r1]))
    as (m & Hrun & -> & _).
  exists m. split; [exact Hrun |]. now rewrite head_movement_on_ends.
Qed.

(** C7.  On a trace of two frames or more whose first and last frames are
    non-empty, with noses [n0] and [n1], the report ends with the
    head-movement warning if and only if [|y n0 - y n1|] exceeds 0.05, and
    with the head-stability praise if and only if it does not (0.05 itself
    included). *)
Theorem head_movement_threshold (n0 n1 : Landmark) (r0 r1 : FrameLandmarks)
        (mid : LandmarkTrace) :
  exists elbow,
    (analyze_landmarks ((n0 :: r0) :: mid ++ [n1 :: r1])
       = Ok [elbow; head_moving_line]
     <-> 5 / 100 < Rabs (y n0 - y n1))
    /\ (analyze_landmarks ((n0 :: r0) :: mid ++ [n1 :: r1])
          = Ok [elbow; head_stable_line]
        <-> Rabs (y n0 - y n1) <= 5 / 100).
Proof.
  destruct (analyze_landmarks_on_ends n0 n1 r0 r1 mid) as (m & _ & ->).
  exists (elbow_line m).
  pose proof head_lines_differ as Hdiff.
  destruct (Rlt_dec (5 / 100) (Rabs (y n0 - y n1))) as [Hgt | Hle].
  - split; split; intros H; try reflexivity; try assumption.
    + congruence.
    + lra.
  - split; split; intros H; try reflexivity; try lra.
    congruence.
Qed.

(** The loop started at 180 returns the least angle of the qualifying
    frames, when there is one. *)
Lemma min_elbow_loop_minimum (lpf : LandmarkTrace) (m : R) :
  (exists fl, In fl lpf /\ qualifying fl = true
              /\ right_elbow_angle fl = Ok m) ->
  (forall fl a, In fl lpf -> qualifying fl = true ->
                right_elbow_angle fl = Ok a -> m <= a) ->
  min_elbow_loop lpf 180 = Ok m.
Proof.
  intros (fl & Hin & Hq & Ha) Hmin.
  destruct (min_elbow_loop_spec lpf 180) as (m' & Hrun & _ & Hlow & Hwho).
  rewrite Hrun. f_equal. apply Rle_antisym.
  - now apply (Hlow fl).
  - destruct Hwho as [-> | (fl' & Hin' & Hq' & Ha')].
    + now apply right_elbow_angle_range in Ha.
    + now apply (Hmin fl').
Qed.

Lemma contains_bent (m : R) : contains (arm_bent_line m) "bent".
Proof.
  exists "Your arm is quite "%string. eexists.
  unfold arm_bent_line. reflexivity.
Qed.

Lemma contains_angle (m : R) :
  contains (arm_bent_line m) (format_int (int_of_real m)).
Proof.
  exists "Your arm is quite bent. The minimum elbow angle was "%string.
  eexists. unfold arm_bent_line. reflexivity.
Qed.

(** C8.  When [m], the least elbow angle over the qualifying frames, is
    below 90, the report starts with the bent-arm line, which contains the
    word "bent" and the decimal text of [m] truncated to an integer. *)
Theorem bent_arm_feedback (lpf : LandmarkTrace) (m : R) :
  (exists fl, In fl lpf /\ qualifying fl = true
              /\ right_elbow_angle fl = Ok m) ->
  (forall fl a, In fl lpf -> qualifying fl = true ->
                right_elbow_angle fl = Ok a -> m <= a) ->
  m < 90 ->
  exists line rest,
    analyze_landmarks lpf = Ok (line :: rest)
    /\ line = arm_bent_line m
    /\ contains line "bent"
    /\ contains line (format_int (int_of_real m))
    /\ int_of_real m = Zfloor m.
Proof.
  intros Hfound Hmin Hm.
  pose proof (min_elbow_loop_minimum lpf Hfound Hmin) as Hrun.
  destruct (analyze_landmarks_total lpf) as (m' & Hrun' & _ & rest & Hall).
  rewrite Hrun in Hrun'. injection Hrun' as <-.
  rewrite elbow_line_bent in Hall by exact Hm.
  exists (arm_bent_line m), rest.
  split; [exact Hall |]. split; [reflexivity |].
  split; [apply contains_bent |]. split; [apply contains_angle |].
  apply int_of_real_nonneg.
  destruct Hfound as (fl & _ & _ & Ha).
  now apply right_elbow_angle_range in Ha.
Qed.

Lemma right_elbow_angle_bent_arm : right_elbow_angle bent_arm = Ok 45.
Proof.
  unfold bent_arm. rewrite right_elbow_angle_arm_frame.
  now rewrite calculate_angle_45.
Qed.

(** A 45 degree elbow yields the bent-arm line with "45" in it. *)
Lemma bent_arm_feedback_witness :
  exists line rest,
    analyze_landmarks [bent_arm] = Ok (line :: rest)
    /\ line = arm_bent_line 45
    /\ contains line "bent"
    /\ contains line (format_int (int_of_real 45))
    /\ int_of_real 45 = Zfloor 45.
Proof.
  apply (@bent_arm_feedback [bent_arm] 45).
  - exists bent_arm. split; [now left |]. split; [reflexivity |].
    exact right_elbow_angle_bent_arm.
  - intros fl a [<- | []] _ Ha.
    rewrite right_elbow_angle_bent_arm in Ha. injection Ha as <-. lra.
  - lra.
Defined.

Lemma arm_bent_line_45 :
  arm_bent_line 45
  = "Your arm is quite bent. The minimum elbow angle was 45°. Try to keep the arm straighter for more power."%string.
Proof. unfold arm_bent_line. rewrite int_of_real_45. reflexivity. Qed.



(** The example of the specification: a minimum of 75 degrees. *)

Lemma calculate_angle_75 :
  calculate_angle (1, 0) (0, 0) (cos (75 * PI / 180), sin (75 * PI / 180))
  = 75.
Proof.
  pose proof PI_RGT_0 as Hpi.
  assert (Hth : - (PI / 2) < 75 * PI / 180 < PI / 2) by (split; lra).
  assert (Hcos : 0 < cos (75 * PI / 180)) by (apply cos_gt_0; lra).
  rewrite (@calculate_angle_degrees _ _ _ 75).
  - apply Rabs_pos_eq. lra.
  - cbn [fst snd].
    replace (0 - 0) with 0 by ring. replace (1 - 0) with 1 by ring.
    rewrite !Rminus_0_r.
    rewrite arctan2_0_1, arctan2_right by exact Hcos.
    change (sin (75 * PI / 180) / cos (75 * PI / 180))
      with (tan (75 * PI / 180)).
    rewrite atan_tan by exact Hth. ring.
  - lra.
Qed.

Example bent_arm_75_feedback :
  analyze_landmarks [bent_arm_75]
  = Ok ["Your arm is quite bent. The minimum elbow angle was 75°. Try to keep the arm straighter for more power."%string].
Proof.
  destruct (analyze_landmarks_total [bent_arm_75]) as (m & Hrun & -> & _).
  assert (Hm : m = 75).
  { unfold bent_arm_75 in Hrun. cbn [min_elbow_loop] in Hrun.
    rewrite qualifying_arm_frame, right_elbow_angle_arm_frame in Hrun.
    cbn [bind] in Hrun. rewrite calculate_angle_75 in Hrun.
    destruct (Rlt_dec 75 180); [congruence | lra]. }
  subst m. rewrite head_movement_short by (unfold len; simpl; lia).
  rewrite elbow_line_bent by lra.
  unfold arm_bent_line. rewrite int_of_real_nonneg by lra.
  now rewrite ZfloorZ.
Qed.

End AnalysisFacts.

(* ================================================================== *)
(** * Properties of the endpoint *)
(* ================================================================== *)

Module EndpointFacts.

Import Analysis Endpoint Samples AnalysisFacts.

(** ** Timestamps *)

Lemma int_of_rat_floor (q : Q) : (0 <= q)%Q -> int_of_rat q = Qfloor q.
Proof.
  destruct q as [a b]. unfold Qle, int_of_rat, Qfloor. simpl.
  intros Ha. apply Z.quot_div_nonneg; lia.
Qed.

Lemma frame_timestamp_ms_defined (frame_number : Z) (fps : Q) :
  ~ (fps == 0)%Q ->
  frame_timestamp_ms frame_number fps
  = Ok (int_of_rat (inject_Z frame_number / fps * 1000)).
Proof.
  intros Hfps. unfold frame_timestamp_ms, truediv.
  destruct (Qeq_bool fps 0) eqn:Hz; [| reflexivity].
  apply Qeq_bool_eq in Hz. contradiction.
Qed.

Lemma scaled_nonneg (frame_number : Z) (fps : Q) :
  (0 < fps)%Q -> (0 <= frame_number)%Z ->
  (0 <= inject_Z frame_number / fps * 1000)%Q.
Proof.
  intros Hfps Hn.
  apply Qmult_le_0_compat; [| discriminate].
  apply Qle_shift_div_l; [exact Hfps |].
  rewrite Qmult_0_l. change 0%Q with (inject_Z 0).
  now rewrite <- Zle_Qle.
Qed.

(** The timestamp is the floor of [i / fps * 1000]. *)
Lemma frame_timestamp_ms_floor (frame_number : Z) (fps : Q) :
  (0 < fps)%Q -> (0 <= frame_number)%Z ->
  frame_timestamp_ms frame_number fps
  = Ok (Qfloor (inject_Z frame_number / fps * 1000)).
Proof.
  intros Hfps Hn.
  rewrite frame_timestamp_ms_defined.
  - now rewrite int_of_rat_floor by now apply scaled_nonneg.
  - intros Hz. rewrite Hz in Hfps. discriminate.
Qed.

Lemma scaled_step (frame_number : Z) (fps : Q) :
  (0 < fps)%Q ->
  (inject_Z (frame_number + 1) / fps * 1000
   == inject_Z frame_number / fps * 1000 + 1000 / fps)%Q.
Proof.
  intros Hfps. rewrite inject_Z_plus. field.
  intros Hz. rewrite Hz in Hfps. discriminate.
Qed.

(** Timestamps never decrease. *)
Lemma frame_timestamp_ms_monotone (frame_number : Z) (fps : Q) :
  (0 < fps)%Q -> (0 <= frame_number)%Z ->
  exists t t',
    frame_timestamp_ms frame_number fps = Ok t
    /\ frame_timestamp_ms (frame_number + 1) fps = Ok t'
    /\ (t <= t')%Z.
Proof.
  intros Hfps Hn.
  do 2 eexists. split; [now apply frame_timestamp_ms_floor |].
  split; [apply frame_timestamp_ms_floor; [exact Hfps | lia] |].
  apply Qfloor_resp_le. rewrite scaled_step by exact Hfps.
  assert (0 <= 1000 / fps)%Q.
  { apply Qle_shift_div_l; [exact Hfps |]. rewrite Qmult_0_l. discriminate. }
  rewrite <- (Qplus_0_r (inject_Z frame_number / fps * 1000)) at 1.
  now apply Qplus_le_r.
Qed.

(** Up to 1000 frames per second, they increase strictly. *)
Lemma frame_timestamp_ms_strict (frame_number : Z) (fps : Q) :
  (0 < fps)%Q -> (fps <= 1000)%Q -> (0 <= frame_number)%Z ->
  exists t t',
    frame_timestamp_ms frame_number fps = Ok t
    /\ frame_timestamp_ms (frame_number + 1) fps = Ok t'
    /\ (t < t')%Z.
Proof.
  intros Hfps Hmax Hn.
  do 2 eexists. split; [now apply frame_timestamp_ms_floor |].
  split; [apply frame_timestamp_ms_floor; [exact Hfps | lia] |].
  set (q := (inject_Z frame_number / fps * 1000)%Q).
  assert (Hstep : (q + 1 <= inject_Z (frame_number + 1) / fps * 1000)%Q).
  { rewrite scaled_step by exact Hfps. fold q.
    apply Qplus_le_r. apply Qle_shift_div_l; [exact Hfps |].
    now rewrite Qmult_1_l. }
  apply Qfloor_resp_le in Hstep.
  assert (Hq1 : Qfloor (q + 1) = (Qfloor q + 1)%Z).
  { destruct q as [a b]. unfold Qfloor, Qplus. simpl.
    rewrite Z.mul_1_r, Pos.mul_1_r.
    replace (a + Z.pos b)%Z with (a + 1 * Z.pos b)%Z by lia.
    now rewrite Z.div_add by lia. }
  lia.
Qed.

(** ** The frame loop and the [try] block *)

Lemma effective_fps_nonzero (fps : Q) : ~ (effective_fps fps == 0)%Q.
Proof.
  unfold effective_fps. destruct (Qeq_bool fps 0) eqn:Hz.
  - discriminate.
  - intros H. apply Qeq_eq_bool in H. congruence.
Qed.


Section PipelineFacts.

Variable Frame : Type.
Variable Detector : Type.
Variable detect_for_video :
  Detector -> Frame -> Z -> result (list FrameLandmarks) * Detector.

Lemma frame_loop_cons (fps : Q) (frame : Frame) (rest : list Frame)
      (k : Z) (acc : LandmarkTrace) (w : World Detector) :
  frame_loop detect_for_video fps (frame :: rest) k acc w =
  match frame_timestamp_ms k fps with
  | Raise e => (Raise e, w)
  | Ok ts =>
      match detect_for_video (landmarker w) frame ts with
      | (Raise e, d) => (Raise e, after_call w d ts)
      | (Ok poses, d) =>
          frame_loop detect_for_video fps rest (k + 1)
            (acc ++ [match poses with [] => [] | p :: _ => p end])
            (after_call w d ts)
      end
  end.
Proof.
  cbn [frame_loop]. unfold bindM at 1, lift.
  destruct (frame_timestamp_ms k fps) as [ts | e]; [| reflexivity].
  unfold bindM, detect, after_call.
  destruct (detect_for_video (landmarker w) frame ts) as [[poses | e] d];
    reflexivity.
Qed.

(** The loop touches neither the capture nor the uploaded file, and an
    exception leaving it was raised by the detector. *)
Lemma frame_loop_inv (fps : Q) (pending : list Frame) :
  ~ (fps == 0)%Q ->
  forall k acc w r w',
    frame_loop detect_for_video fps pending k acc w = (r, w') ->
    cap_released w' = cap_released w
    /\ on_disk w' = on_disk w
    /\ (forall e, r = Raise e ->
                  exists d frame ts d',
                    detect_for_video d frame ts = (Raise e, d')).
Proof.
  intros Hfps.
  induction pending as [| frame rest IH]; intros k acc w r w' Hrun.
  - injection Hrun as <- <-. repeat split. discriminate.
  - rewrite frame_loop_cons, frame_timestamp_ms_defined in Hrun
      by exact Hfps.
    destruct (detect_for_video (landmarker w) frame
                (int_of_rat (inject_Z k / fps * 1000)))
      as [[poses | e] d] eqn:Hdet.
    + apply IH in Hrun as (Hrel & Hdisk & Hexn). auto.
    + injection Hrun as <- <-. repeat split.
      intros e' [= <-]. eauto.
Qed.


Lemma try_block_unfold (cap : VideoCapture Frame) (w : World Detector) :
  try_block detect_for_video cap w =
  match frame_loop detect_for_video (effective_fps (CAP_PROP_FPS cap))
          (if isOpened cap then frames cap else []) 0 []
          (with_released false w) with
  | (Raise e, w1) => (Raise e, w1)
  | (Ok all_landmarks, w1) =>
      match analyze_landmarks all_landmarks with
      | Ok feedback =>
          (Ok (all_landmarks, feedback), with_released true w1)
      | Raise e => (Raise e, with_released true w1)
      end
  end.
Proof.
  unfold try_block, bindM, open_capture, release, lift, ret, with_released.
  destruct (frame_loop _ _ _ _ _ _) as [[lm | e] w1]; [| reflexivity].
  destruct (analyze_landmarks lm); reflexivity.
Qed.

(** What the [try] block leaves behind: the capture is released exactly
    when no exception was raised, and an exception can only come from
    the detector. *)
Lemma try_block_outcome (cap : VideoCapture Frame) (w : World Detector) :
  (exists lm fb w',
      try_block detect_for_video cap w = (Ok (lm, fb), w')
      /\ analyze_landmarks lm = Ok fb
      /\ cap_released w' = true /\ on_disk w' = on_disk w)
  \/ (exists e w',
         try_block detect_for_video cap w = (Raise e, w')
         /\ cap_released w' = false /\ on_disk w' = on_disk w
         /\ exists d frame ts d',
             detect_for_video d frame ts = (Raise e, d')).
Proof.
  rewrite try_block_unfold.
  destruct (frame_loop _ _ _ _ _ _) as [[lm | e] w1] eqn:Hrun;
    apply frame_loop_inv in Hrun as (Hrel & Hdisk & Hexn);
    try apply effective_fps_nonzero.
  - destruct (analyze_landmarks_total lm) as (m & _ & _ & fb & Hfb).
    rewrite Hfb. left. exists lm, (elbow_line m :: fb), (with_released true w1).
    auto.
  - right. exists e, w1. auto.
Qed.

End PipelineFacts.

(** ** Saving the upload *)

Lemma video_path_is_folder (sname : string) :
  String.eqb (video_path sname) "uploads/" = String.eqb sname "".
Proof.
  unfold video_path. destruct sname as [| a rest]; [reflexivity |].
  cbn [String.prefix].
  destruct (ascii_dec "/" a) as [<- | _]; [| reflexivity].
  now destruct rest.
Qed.

(** An accepted upload whose sanitised name is not empty is saved, and the
    answer is that of the [try] block. *)
Lemma endpoint_saved
      (Frame Detector : Type)
      (detect_for_video :
         Detector -> Frame -> Z -> result (list FrameLandmarks) * Detector)
      (name sname : string) (cap : VideoCapture Frame) (w : World Detector) :
  name <> ""%string -> sname <> ""%string ->
  analyze_video_endpoint detect_for_video (Some (mkUpload name sname cap)) w
  = match try_block detect_for_video cap (set_on_disk true w) with
    | (Ok (all_landmarks, feedback), w') =>
        (mkResponse (AnalysisSuccessful all_landmarks feedback) 200,
         set_on_disk false w')
    | (Raise e, w') =>
        (mkResponse (Error (str e)) 500, set_on_disk false w')
    end.
Proof.
  intros Hname Hsname.
  apply String.eqb_neq in Hname. apply String.eqb_neq in Hsname.
  unfold analyze_video_endpoint, file_save.
  cbn [filename secure_name content].
  now rewrite Hname, video_path_is_folder, Hsname.
Qed.

(** An accepted upload whose sanitised name is empty cannot be saved: the
    exception of [file.save] leaves the view, nothing else happens. *)
Lemma endpoint_not_saved
      (Frame Detector : Type)
      (detect_for_video :
         Detector -> Frame -> Z -> result (list FrameLandmarks) * Detector)
      (name : string) (cap : VideoCapture Frame) (w : World Detector) :
  name <> ""%string ->
  analyze_video_endpoint detect_for_video (Some (mkUpload name "" cap)) w
  = (mkResponse InternalServerError 500, set_on_disk false w).
Proof.
  intros Hname. apply String.eqb_neq in Hname.
  unfold analyze_video_endpoint, file_save.
  cbn [filename secure_name content].
  now rewrite Hname.
Qed.

(** ** The claims on the endpoint *)




(** C3, at a failing input.  At 2000 frames per second frames 0 and 1 both
    get timestamp 0, and the detector is called with the timestamps
    [0; 0] on a two-frame clip: they do not increase strictly. *)
Theorem timestamps_repeat_at_2000_fps :
  frame_timestamp_ms 0 2000 = Ok 0%Z
  /\ frame_timestamp_ms 1 2000 = Ok 0%Z
  /\ detector_timestamps
       (snd (analyze_video_endpoint blind_detector
               (Some (mkUpload "serve.mp4" "serve.mp4" (clip 2000 2)))
               (start tt)))
     = [0%Z; 0%Z].
Proof.
  split; [reflexivity |]. split; [reflexivity |].
  rewrite endpoint_saved by discriminate.
  rewrite try_block_unfold.
  change (frame_loop blind_detector (effective_fps (CAP_PROP_FPS (clip 2000 2)))
            (if isOpened (clip 2000 2) then frames (clip 2000 2) else [])
            0 [] (with_released false (set_on_disk true (start tt))))
    with (Ok [[]; []] : result LandmarkTrace,
          {| landmarker := tt; detector_timestamps := [0%Z; 0%Z];
             cap_released := false; on_disk := true |}).
  destruct (analyze_landmarks [[]; []]); reflexivity.
Qed.

(** With a landmarker that insists on increasing timestamps, that clip is
    answered with a 500. *)
Example strict_detector_rejects_2000_fps :
  analyze_video_endpoint strict_detector
    (Some (mkUpload "serve.mp4" "serve.mp4" (clip 2000 2))) (start None)
  = (mkResponse (Error "Input timestamp must be monotonically increasing.")
                500,
     {| landmarker := Some 0%Z; detector_timestamps := [0%Z; 0%Z];
        cap_released := false; on_disk := false |}).
Proof. reflexivity. Qed.




(** C9, at a failing input.  When the detector raises on the only frame of
    an opened clip, the endpoint answers 500 and removes the upload, but
    [cap.release()] has not been called. *)
Theorem detector_failure_leaves_capture_unreleased :
  analyze_video_endpoint failing_detector
    (Some (mkUpload "serve.mp4" "serve.mp4" (clip 30 1))) (start tt)
  = (mkResponse (Error "detector failure") 500,
     {| landmarker := tt; detector_timestamps := [0%Z];
        cap_released := false; on_disk := false |}).
Proof. reflexivity. Qed.

(** On every accepted upload the file is not on disk afterwards.  When it
    could be saved, the capture is released exactly when the answer is
    200, and a 500 carries an exception raised by the detector; when it
    could not, the answer is the 500 of Flask itself and neither the
    capture nor the detector has been touched. *)
Lemma endpoint_outcome
      (Frame Detector : Type)
      (detect_for_video :
         Detector -> Frame -> Z -> result (list FrameLandmarks) * Detector)
      (name sname : string) (cap : VideoCapture Frame)
      (w : World Detector) :
  name <> ""%string ->
  forall resp w',
    analyze_video_endpoint detect_for_video (Some (mkUpload name sname cap)) w
    = (resp, w') ->
    on_disk w' = false
    /\ ((sname <> ""%string /\ status resp = 200%Z /\ cap_released w' = true)
        \/ (sname <> ""%string /\ status resp = 500%Z
            /\ cap_released w' = false
            /\ exists e d frame ts d',
                detect_for_video d frame ts = (Raise e, d')
                /\ body resp = Error (str e))
        \/ (sname = ""%string /\ resp = mkResponse InternalServerError 500
            /\ w' = set_on_disk false w)).
Proof.
  intros Hname resp w'.
  destruct (String.eqb_spec sname "") as [-> | Hsname].
  - rewrite endpoint_not_saved by exact Hname.
    intros [= <- <-]. split; [reflexivity |]. right. right. auto.
  - rewrite endpoint_saved by assumption.
    destruct (try_block_outcome detect_for_video cap (set_on_disk true w))
      as [(lm & fb & w1 & -> & _ & Hrel & _)
         | (e & w1 & -> & Hrel & _ & d & frame & ts & d' & Hdet)];
      intros [= <- <-]; (split; [reflexivity |]).
    + left. auto.
    + right. left. repeat split; [exact Hsname | exact Hrel |].
      exists e, d, frame, ts, d'. auto.
Qed.

End EndpointFacts.

(* ================================================================== *)
(** * Further properties of the analysis helpers *)
(* ================================================================== *)

Module AnalysisLaws.

Import Analysis Samples AnalysisFacts.
Local Open Scope R_scope.

(** ** The elbow line *)

Lemma arm_bent_line_not_good (m : R) : arm_bent_line m <> arm_good_line.
Proof. unfold arm_bent_line. simpl. discriminate. Qed.

Lemma loop_minimum_range (lpf : LandmarkTrace) (m : R) :
  min_elbow_loop lpf 180 = Ok m -> 0 <= m <= 180.
Proof.
  intros Hrun.
  destruct (min_elbow_loop_spec lpf 180)
    as (m' & Hrun' & Hle & _ & [Heq | (fl & _ & _ & Ha)]);
    rewrite Hrun in Hrun'; injection Hrun' as <-.
  - lra.
  - now apply right_elbow_angle_range in Ha.
Qed.

Lemma int_of_real_below_90 (m : R) :
  0 <= m < 90 -> (0 <= int_of_real m <= 89)%Z.
Proof.
  intros [Hlo Hhi]. rewrite int_of_real_nonneg by exact Hlo.
  split.
  - apply Zfloor_lub. exact Hlo.
  - pose proof (Zfloor_bound m) as [Hfl _].
    assert (Hlt : IZR (Zfloor m) < IZR 90) by lra.
    apply lt_IZR in Hlt. lia.
Qed.

(** The minimum found by the loop depends only on which frames occur. *)
Lemma min_elbow_loop_same_frames (lpf lpf' : LandmarkTrace) :
  (forall fl, In fl lpf <-> In fl lpf') ->
  min_elbow_loop lpf 180 = min_elbow_loop lpf' 180.
Proof.
  intros Hsame.
  destruct (min_elbow_loop_spec lpf 180) as (m & Hrun & Hle & Hlow & Hwho).
  destruct (min_elbow_loop_spec lpf' 180)
    as (m' & Hrun' & Hle' & Hlow' & Hwho').
  rewrite Hrun, Hrun'. f_equal. apply Rle_antisym.
  - destruct Hwho' as [-> | (fl & Hin & Hq & Ha)]; [exact Hle |].
    apply (Hlow fl); [now apply Hsame | exact Hq | exact Ha].
  - destruct Hwho as [-> | (fl & Hin & Hq & Ha)]; [exact Hle' |].
    apply (Hlow' fl); [now apply Hsame | exact Hq | exact Ha].
Qed.

(** X5.  [analyze_landmarks] never raises and returns one or two lines.
    The first is the elbow line: "could not determine", "good extension",
    or the bent-arm line, whose number is then an integer from 0 to 89.
    The second, if any, is the head warning or the head praise; the
    "could not determine head movement" line is never returned. *)
Theorem report_shape (lpf : LandmarkTrace) :
  exists elbow,
    (elbow = arm_unknown_line
     \/ elbow = arm_good_line
     \/ exists m, elbow = arm_bent_line m
                  /\ (0 <= int_of_real m <= 89)%Z)
    /\ (analyze_landmarks lpf = Ok [elbow]
        \/ analyze_landmarks lpf = Ok [elbow; head_moving_line]
        \/ analyze_landmarks lpf = Ok [elbow; head_stable_line]).
Proof.
  destruct (analyze_landmarks_total lpf) as (m & Hrun & Heq & _).
  exists (elbow_line m). split.
  - pose proof (loop_minimum_range lpf Hrun) as Hm.
    destruct (Rlt_dec m 90) as [Hb | Hb].
    + right. right. exists m. split; [now apply elbow_line_bent |].
      apply int_of_real_below_90. lra.
    + destruct (Req_dec_T m 180) as [-> | Hne].
      * left. apply elbow_line_180.
      * right. left. apply elbow_line_good; lra.
  - rewrite Heq.
    destruct (head_unknown_line_unreachable lpf [elbow_line m])
      as [-> | [-> | ->]]; auto.
Qed.

(** X6.  Which elbow line is returned.  It is the bent-arm line exactly
    when some qualifying frame has an elbow angle below 90, and the
    good-extension line exactly when no qualifying frame is below 90 but
    some qualifying frame is below 180 (an angle of exactly 90 counts as
    good extension). *)
Theorem elbow_line_classification (lpf : LandmarkTrace) :
  exists line rest,
    analyze_landmarks lpf = Ok (line :: rest)
    /\ ((exists m, line = arm_bent_line m) <->
        exists fl a, In fl lpf /\ qualifying fl = true
                     /\ right_elbow_angle fl = Ok a /\ a < 90)
    /\ (line = arm_good_line <->
        (exists fl a, In fl lpf /\ qualifying fl = true
                      /\ right_elbow_angle fl = Ok a /\ a < 180)
        /\ (forall fl a, In fl lpf -> qualifying fl = true ->
                         right_elbow_angle fl = Ok a -> 90 <= a)).
Proof.
  destruct (analyze_landmarks_total lpf) as (m & Hrun & _ & rest & Hall).
  destruct (min_elbow_loop_spec lpf 180)
    as (m' & Hrun' & Hle & Hlow & Hwho).
  rewrite Hrun in Hrun'. injection Hrun' as <-.
  exists (elbow_line m), rest. split; [exact Hall |].
  assert (Hattained : m <> 180 ->
            exists fl, In fl lpf /\ qualifying fl = true
                       /\ right_elbow_angle fl = Ok m).
  { intros Hne. destruct Hwho as [Heq | Hfl]; [contradiction | exact Hfl]. }
  split; split.
  - intros [m' Hline].
    destruct (Rlt_dec m 90) as [Hb | Hb].
    + destruct Hattained as (fl & Hin & Hq & Ha); [lra |].
      exists fl, m. auto.
    + exfalso. destruct (Req_dec_T m 180) as [-> | Hne].
      * rewrite elbow_line_180 in Hline. symmetry in Hline.
        now apply arm_bent_line_not_unknown in Hline.
      * rewrite elbow_line_good in Hline by lra. symmetry in Hline.
        now apply arm_bent_line_not_good in Hline.
  - intros (fl & a & Hin & Hq & Ha & Hlt).
    pose proof (Hlow fl a Hin Hq Ha).
    exists m. apply elbow_line_bent. lra.
  - intros Hline.
    destruct (Rlt_dec m 90) as [Hb | Hb].
    + rewrite elbow_line_bent in Hline by exact Hb.
      now apply arm_bent_line_not_good in Hline.
    + destruct (Req_dec_T m 180) as [-> | Hne].
      * rewrite elbow_line_180 in Hline. discriminate.
      * destruct Hattained as (fl & Hin & Hq & Ha); [exact Hne |].
        split.
        -- exists fl, m. repeat split; auto. lra.
        -- intros fl' a Hin' Hq' Ha'.
           pose proof (Hlow fl' a Hin' Hq' Ha'). lra.
  - intros [(fl & a & Hin & Hq & Ha & Hlt) Hall90].
    pose proof (Hlow fl a Hin Hq Ha).
    assert (Hne : m <> 180) by lra.
    destruct Hattained as (fl' & Hin' & Hq' & Ha'); [exact Hne |].
    pose proof (Hall90 fl' m Hin' Hq' Ha').
    now apply elbow_line_good.
Qed.

(** X7.  The elbow line depends only on which frames occur in the trace,
    not on their order or on how often they occur. *)
Theorem elbow_line_ignores_order (lpf lpf' : LandmarkTrace) :
  (forall fl, In fl lpf <-> In fl lpf') ->
  exists line rest rest',
    analyze_landmarks lpf = Ok (line :: rest)
    /\ analyze_landmarks lpf' = Ok (line :: rest').
Proof.
  intros Hsame.
  destruct (analyze_landmarks_total lpf) as (m & Hrun & _ & rest & Hall).
  destruct (analyze_landmarks_total lpf')
    as (m' & Hrun' & _ & rest' & Hall').
  rewrite (@min_elbow_loop_same_frames lpf lpf' Hsame), Hrun' in Hrun.
  injection Hrun as <-.
  exists (elbow_line m'), rest, rest'. auto.
Qed.

Lemma elbow_line_ignores_order_witness :
  exists line rest rest',
    analyze_landmarks [bent_arm; straight_arm] = Ok (line :: rest)
    /\ analyze_landmarks [straight_arm; bent_arm; bent_arm]
       = Ok (line :: rest').
Proof.
  apply (@elbow_line_ignores_order
           [bent_arm; straight_arm] [straight_arm; bent_arm; bent_arm]).
  intros fl. simpl. tauto.
Defined.

(** ** The head line *)

(** X8.  The head line depends on the first and the last frame only: the
    frames between them can be replaced by any others without changing
    what follows the elbow line. *)
Theorem head_line_ignores_middle (f0 f1 : FrameLandmarks)
        (mid mid' : LandmarkTrace) :
  exists elbow elbow' rest,
    analyze_landmarks (f0 :: mid ++ [f1]) = Ok (elbow :: rest)
    /\ analyze_landmarks (f0 :: mid' ++ [f1]) = Ok (elbow' :: rest).
Proof.
  destruct (analyze_landmarks_total (f0 :: mid ++ [f1]))
    as (m & _ & -> & _).
  destruct (analyze_landmarks_total (f0 :: mid' ++ [f1]))
    as (m' & _ & -> & _).
  rewrite !head_movement_on_ends.
  destruct f0 as [| n0 r0]; [exists (elbow_line m), (elbow_line m'), []; auto |].
  destruct f1 as [| n1 r1]; [exists (elbow_line m), (elbow_line m'), []; auto |].
  eexists (elbow_line m), (elbow_line m'), [_]. split; reflexivity.
Qed.

Lemma head_movement_rev (lpf : LandmarkTrace) (fb : list string) :
  head_movement_analysis (rev lpf) fb = head_movement_analysis lpf fb.
Proof.
  destruct (Z_lt_le_dec (len lpf) 2) as [Hs | Hl].
  - destruct lpf as [| f [| g lpf]]; try reflexivity.
    unfold len in Hs. simpl in Hs. lia.
  - destruct (@ends_of_long _ lpf) as (f0 & mid & f1 & ->); [lia |].
    replace (rev (f0 :: mid ++ [f1])) with (f1 :: rev mid ++ [f0])
      by (simpl; now rewrite rev_app_distr).
    rewrite !head_movement_on_ends.
    destruct f0 as [| n0 r0], f1 as [| n1 r1]; try reflexivity.
    now rewrite Rabs_minus_sym.
Qed.

(** X9.  Playing the clip backwards gives the same report. *)
Theorem analyze_landmarks_rev (lpf : LandmarkTrace) :
  analyze_landmarks (rev lpf) = analyze_landmarks lpf.
Proof.
  destruct (analyze_landmarks_total lpf) as (m & Hrun & -> & _).
  destruct (analyze_landmarks_total (rev lpf)) as (m' & Hrun' & -> & _).
  rewrite (@min_elbow_loop_same_frames (rev lpf) lpf), Hrun in Hrun'
    by (intros fl; symmetry; apply in_rev).
  injection Hrun' as <-. apply head_movement_rev.
Qed.

(** X10.  When every frame of the trace is empty (nobody was detected in
    any frame), whatever the number of frames, the report is the single
    line "Could not determine elbow angle...". *)
Theorem nobody_in_view (lpf : LandmarkTrace) :
  (forall fl, In fl lpf -> fl = []) ->
  analyze_landmarks lpf = Ok [arm_unknown_line].
Proof.
  intros Hempty.
  destruct (analyze_landmarks_total lpf) as (m & Hrun & -> & _).
  assert (Hm : m = 180).
  { destruct (min_elbow_loop_spec lpf 180)
      as (m' & Hrun' & _ & _ & [Heq | (fl & Hin & Hq & _)]);
      rewrite Hrun in Hrun'; injection Hrun' as <-; [exact Heq |].
    rewrite (Hempty fl Hin) in Hq. discriminate. }
  subst m. rewrite elbow_line_180.
  destruct (Z_lt_le_dec (len lpf) 2) as [Hs | Hl].
  - now apply head_movement_short.
  - destruct (@ends_of_long _ lpf) as (f0 & mid & f1 & ->); [lia |].
    apply head_movement_empty_end. left. apply Hempty. now left.
Qed.

Lemma nobody_in_view_witness :
  analyze_landmarks [[]; []; []] = Ok [arm_unknown_line].
Proof.
  apply (@nobody_in_view [[]; []; []]).
  intros fl Hin. simpl in Hin. intuition.
Defined.

(** ** What the analysis reads of a landmark *)

Lemma getitem_map (A B : Type) (g : A -> B) (l : list A) (i : Z) :
  getitem (map g l) i
  = match getitem l i with
    | Ok a => Ok (g a)
    | Raise e => Raise e
    end.
Proof.
  unfold getitem, len. rewrite length_map.
  set (idx := if (i <? 0)%Z then _ else _).
  destruct (idx <? 0)%Z; [reflexivity |].
  rewrite nth_error_map.
  now destruct (nth_error l _).
Qed.

Lemma qualifying_map (g : Landmark -> Landmark) (fl : FrameLandmarks) :
  qualifying (map g fl) = qualifying fl.
Proof.
  unfold qualifying, len. rewrite length_map. now destruct fl.
Qed.

(** A change of the landmarks that keeps every elbow angle and every
    difference of heights keeps the report. *)
Lemma analyze_landmarks_map (g : Landmark -> Landmark) :
  (forall s e w,
      calculate_angle (x (g s), y (g s)) (x (g e), y (g e)) (x (g w), y (g w))
      = calculate_angle (x s, y s) (x e, y e) (x w, y w)) ->
  (forall a b, (y (g a) - y (g b) = y a - y b)%R) ->
  forall lpf, analyze_landmarks (map (map g) lpf) = analyze_landmarks lpf.
Proof.
  intros Hangle Hheight lpf.
  assert (Helbow : forall fl,
             right_elbow_angle (map g fl) = right_elbow_angle fl).
  { intros fl. unfold right_elbow_angle. rewrite !getitem_map.
    destruct (getitem fl 12); [| reflexivity].
    destruct (getitem fl 14); [| reflexivity].
    destruct (getitem fl 16); [| reflexivity].
    cbn [bind]. now rewrite Hangle. }
  assert (Hloop : forall l m,
             min_elbow_loop (map (map g) l) m = min_elbow_loop l m).
  { induction l as [| fl l IH]; intros m; [reflexivity |].
    cbn [map min_elbow_loop]. rewrite qualifying_map, Helbow.
    destruct (qualifying fl); [| apply IH].
    destruct (right_elbow_angle fl); [| reflexivity].
    cbn [bind]. apply IH. }
  assert (Hhead : forall fb,
             head_movement_analysis (map (map g) lpf) fb
             = head_movement_analysis lpf fb).
  { intros fb.
    destruct (Z_lt_le_dec (len lpf) 2) as [Hs | Hl].
    - rewrite !head_movement_short; [reflexivity | exact Hs |].
      unfold len in *. now rewrite length_map.
    - destruct (@ends_of_long _ lpf) as (f0 & mid & f1 & ->); [lia |].
      cbn [map]. rewrite map_app. cbn [map].
      rewrite !head_movement_on_ends.
      destruct f0 as [| n0 r0], f1 as [| n1 r1]; try reflexivity.
      cbn [map]. now rewrite Hheight. }
  unfold analyze_landmarks, elbow_angle_analysis.
  rewrite Hloop.
  destruct (min_elbow_loop lpf 180); [| reflexivity].
  cbn [bind]. apply Hhead.
Qed.

(** X11.  The report reads nothing but the [x] and [y] of the landmarks:
    changing depth and visibility in any way leaves it as it is. *)
Theorem report_ignores_depth_and_visibility
        (g : Landmark -> Landmark) (lpf : LandmarkTrace) :
  (forall l, x (g l) = x l /\ y (g l) = y l) ->
  analyze_landmarks (map (map g) lpf) = analyze_landmarks lpf.
Proof.
  intros Hxy. apply analyze_landmarks_map.
  - intros s e w.
    destruct (Hxy s) as [-> ->], (Hxy e) as [-> ->], (Hxy w) as [-> ->].
    reflexivity.
  - intros a b. destruct (Hxy a) as [_ ->], (Hxy b) as [_ ->]. reflexivity.
Qed.

Lemma report_ignores_depth_and_visibility_witness :
  analyze_landmarks
    (map (map (fun l => mkLandmark (x l) (y l) 7 0)) [bent_arm; straight_arm])
  = analyze_landmarks [bent_arm; straight_arm].
Proof.
  apply (@report_ignores_depth_and_visibility
           (fun l => mkLandmark (x l) (y l) 7 0) [bent_arm; straight_arm]).
  intros l. split; reflexivity.
Defined.

(** X12.  The report does not depend on where in the picture the player
    stands: moving every landmark of every frame by the same vector leaves
    it as it is. *)
Theorem report_translation_invariant
        (g : Landmark -> Landmark) (tx ty : R) (lpf : LandmarkTrace) :
  (forall l, x (g l) = x l + tx /\ y (g l) = y l + ty) ->
  analyze_landmarks (map (map g) lpf) = analyze_landmarks lpf.
Proof.
  intros Hxy. apply analyze_landmarks_map.
  - intros s e w.
    destruct (Hxy s) as [-> ->], (Hxy e) as [-> ->], (Hxy w) as [-> ->].
    unfold calculate_angle. cbn [fst snd].
    replace (y w + ty - (y e + ty))%R with (y w - y e)%R by ring.
    replace (x w + tx - (x e + tx))%R with (x w - x e)%R by ring.
    replace (y s + ty - (y e + ty))%R with (y s - y e)%R by ring.
    replace (x s + tx - (x e + tx))%R with (x s - x e)%R by ring.
    reflexivity.
  - intros a b. destruct (Hxy a) as [_ ->], (Hxy b) as [_ ->]. ring.
Qed.

Lemma report_translation_invariant_witness :
  analyze_landmarks
    (map (map (fun l => mkLandmark (x l + 2) (y l + 3) (z l) (visibility l)))
         [bent_arm; straight_arm])
  = analyze_landmarks [bent_arm; straight_arm].
Proof.
  apply (@report_translation_invariant
           (fun l => mkLandmark (x l + 2) (y l + 3) (z l) (visibility l))
           2 3 [bent_arm; straight_arm]).
  intros l. split; reflexivity.
Defined.

End AnalysisLaws.

(* ================================================================== *)
(** * Further properties of the endpoint *)
(* ================================================================== *)

Module EndpointLaws.

Import Analysis Endpoint Samples Variants AnalysisFacts EndpointFacts.

(** ** Timestamps *)

Lemma scaled_le (i j : Z) (fps : Q) :
  (0 < fps)%Q -> (i <= j)%Z ->
  (inject_Z i / fps * 1000 <= inject_Z j / fps * 1000)%Q.
Proof.
  intros Hfps Hij. unfold Qdiv.
  apply Qmult_le_compat_r; [| discriminate].
  apply Qmult_le_compat_r; [now rewrite <- Zle_Qle |].
  apply Qinv_le_0_compat. now apply Qlt_le_weak.
Qed.

Lemma Qfloor_unit_interval (q : Q) : (0 <= q)%Q -> (q < 1)%Q -> Qfloor q = 0%Z.
Proof.
  intros Hlo Hhi.
  pose proof (Qfloor_le q) as Hfl. pose proof (Qlt_floor q) as Hlt.
  assert (H1 : (inject_Z (Qfloor q) < inject_Z 1)%Q)
    by (eapply Qle_lt_trans; [exact Hfl | exact Hhi]).
  assert (H2 : (inject_Z 0 < inject_Z (Qfloor q + 1))%Q)
    by (eapply Qle_lt_trans; [exact Hlo | exact Hlt]).
  rewrite <- Zlt_Qlt in H1, H2. lia.
Qed.

(** X13.  For a positive frame rate the timestamps never decrease: a
    later frame never gets a smaller timestamp than an earlier one. *)
Theorem timestamps_never_decrease (fps : Q) (i j : Z) :
  (0 < fps)%Q -> (0 <= i <= j)%Z ->
  exists t t',
    frame_timestamp_ms i fps = Ok t
    /\ frame_timestamp_ms j fps = Ok t'
    /\ (t <= t')%Z.
Proof.
  intros Hfps Hij.
  do 2 eexists. split; [apply frame_timestamp_ms_floor; [exact Hfps | lia] |].
  split; [apply frame_timestamp_ms_floor; [exact Hfps | lia] |].
  apply Qfloor_resp_le. apply scaled_le; [exact Hfps | lia].
Qed.

Lemma timestamps_never_decrease_witness :
  exists t t',
    frame_timestamp_ms 3 (30000 # 1001) = Ok t
    /\ frame_timestamp_ms 7 (30000 # 1001) = Ok t'
    /\ (t <= t')%Z.
Proof.
  apply (@timestamps_never_decrease (30000 # 1001) 3 7).
  - reflexivity.
  - lia.
Defined.

(** X15.  For every frame rate above 1000 the first two frames of a clip
    both get timestamp 0. *)
Theorem timestamps_collide_above_1000_fps (fps : Q) :
  (1000 < fps)%Q ->
  frame_timestamp_ms 0 fps = Ok 0%Z /\ frame_timestamp_ms 1 fps = Ok 0%Z.
Proof.
  intros Hfps.
  assert (Hpos : (0 < fps)%Q)
    by (eapply Qlt_trans; [| exact Hfps]; reflexivity).
  rewrite !frame_timestamp_ms_floor by (try exact Hpos; lia).
  split; [reflexivity |].
  f_equal. apply Qfloor_unit_interval.
  - now apply scaled_nonneg.
  - assert (Heq : (inject_Z 1 / fps * 1000 == 1000 / fps)%Q).
    { field. intros Hz. rewrite Hz in Hpos. discriminate. }
    rewrite Heq. apply Qlt_shift_div_r; [exact Hpos |].
    now rewrite Qmult_1_l.
Qed.

Lemma timestamps_collide_above_1000_fps_witness :
  frame_timestamp_ms 0 90000 = Ok 0%Z /\ frame_timestamp_ms 1 90000 = Ok 0%Z.
Proof. apply (@timestamps_collide_above_1000_fps 90000). reflexivity. Defined.

(** X16.  Whatever frame rate the container reports, the rate used is
    not zero and the timestamp computation does not raise; a rate other
    than zero is used as reported. *)
Theorem timestamp_never_raises (fps : Q) (frame_number : Z) :
  (exists ts, frame_timestamp_ms frame_number (effective_fps fps) = Ok ts)
  /\ (~ (fps == 0)%Q -> effective_fps fps = fps).
Proof.
  split.
  - eexists. apply frame_timestamp_ms_defined, effective_fps_nonzero.
  - intros Hnz. unfold effective_fps.
    destruct (Qeq_bool fps 0) eqn:Hz; [| reflexivity].
    apply Qeq_bool_eq in Hz. contradiction.
Qed.

(** ** The frame loop under assumptions on the detector *)


Section PipelineLaws.

Variable Frame : Type.
Variable Detector : Type.
Variable detect_for_video :
  Detector -> Frame -> Z -> result (list FrameLandmarks) * Detector.



Lemma frame_loop_first_pose_only (fps : Q) (pending : list Frame) :
  forall k acc w,
    frame_loop (first_pose_only detect_for_video) fps pending k acc w
    = frame_loop detect_for_video fps pending k acc w.
Proof.
  induction pending as [| frame rest IH]; intros k acc w; [reflexivity |].
  rewrite !frame_loop_cons.
  destruct (frame_timestamp_ms k fps) as [ts | e]; [| reflexivity].
  unfold first_pose_only at 1.
  destruct (detect_for_video (landmarker w) frame ts) as [[poses | e] d'];
    [| reflexivity].
  rewrite IH. now destruct poses.
Qed.

End PipelineLaws.

(** ** The endpoint *)

(** X17.  The answer is 400 exactly when the request has no video entry or
    an empty file name, and then nothing else happens: the state is left as
    it was.  Every other request is answered with 200 or 500. *)
Theorem request_validation
        (Frame Detector : Type)
        (detect_for_video :
           Detector -> Frame -> Z -> result (list FrameLandmarks) * Detector)
        (video : option (Upload Frame)) (w : World Detector) :
  (status (fst (analyze_video_endpoint detect_for_video video w)) = 400%Z
   <-> video = None
       \/ exists file, video = Some file /\ filename file = ""%string)
  /\ (status (fst (analyze_video_endpoint detect_for_video video w)) = 400%Z
      -> snd (analyze_video_endpoint detect_for_video video w) = w)
  /\ (status (fst (analyze_video_endpoint detect_for_video video w)) = 400%Z
      \/ status (fst (analyze_video_endpoint detect_for_video video w))
         = 200%Z
      \/ status (fst (analyze_video_endpoint detect_for_video video w))
         = 500%Z).
Proof.
  destruct video as [[name sname cap] |].
  - destruct (String.eqb_spec name "") as [-> | Hname].
    + cbn. repeat split; auto. right. now exists (mkUpload "" sname cap).
    + destruct (analyze_video_endpoint detect_for_video
                  (Some (mkUpload name sname cap)) w) as [resp w'] eqn:Hrun.
      assert (Hst : status resp = 200%Z \/ status resp = 500%Z).
      { destruct (@endpoint_outcome _ _ detect_for_video name sname cap w
                  Hname resp w' Hrun)
          as (_ & [(_ & Hst & _) | [(_ & Hst & _) | (_ & -> & _)]]); auto. }
      cbn [fst snd].
      assert (Hnot : status resp <> 400%Z)
        by (destruct Hst as [-> | ->]; discriminate).
      split; [split |].
      * intros H400. contradiction.
      * intros [Hnone | (file & [= <-] & Hempty)]; [discriminate |].
        cbn in Hempty. contradiction.
      * split; [intros H400; contradiction |].
        destruct Hst; auto.
  - cbn. repeat split; auto.
Qed.

(** X18.  On every accepted upload the uploaded file is removed again,
    whether the analysis succeeds or raises. *)
Theorem upload_always_removed
        (Frame Detector : Type)
        (detect_for_video :
           Detector -> Frame -> Z -> result (list FrameLandmarks) * Detector)
        (name sname : string) (cap : VideoCapture Frame) (w : World Detector) :
  name <> ""%string ->
  on_disk (snd (analyze_video_endpoint detect_for_video
                  (Some (mkUpload name sname cap)) w)) = false.
Proof.
  intros Hname.
  destruct (analyze_video_endpoint detect_for_video
              (Some (mkUpload name sname cap)) w) as [resp w'] eqn:Hrun.
  now destruct (@endpoint_outcome _ _ detect_for_video name sname cap w
                  Hname resp w' Hrun).
Qed.

Lemma upload_always_removed_witness :
  on_disk (snd (analyze_video_endpoint failing_detector
                  (Some (mkUpload "serve.mp4" "serve.mp4" (clip 30 1))) (start tt)))
  = false.
Proof.
  apply (@upload_always_removed unit unit failing_detector
           "serve.mp4"%string "serve.mp4"%string (clip 30 1) (start tt)).
  discriminate.
Defined.







(** X22.  Only the first pose of a detection is used: cutting every
    detection down to its first pose changes neither the answer nor the
    state the endpoint leaves behind. *)
Theorem first_pose_only_same_answer
        (Frame Detector : Type)
        (detect_for_video :
           Detector -> Frame -> Z -> result (list FrameLandmarks) * Detector)
        (video : option (Upload Frame)) (w : World Detector) :
  analyze_video_endpoint (first_pose_only detect_for_video) video w
  = analyze_video_endpoint detect_for_video video w.
Proof.
  destruct video as [[name sname cap] |]; [| reflexivity].
  unfold analyze_video_endpoint. cbn [filename secure_name content].
  destruct (String.eqb name ""); [reflexivity |].
  destruct (file_save (video_path sname) w) as [[[] | e] w1];
    [| reflexivity].
  now rewrite !try_block_unfold, frame_loop_first_pose_only.
Qed.



End EndpointLaws.
